(** * ResearchAgent: the search and summarizer agents

    A shallow embedding of [src/agents/search.py] and
    [src/agents/summarizer.py].

    - Python values that the two agents handle ([None], [bool], [int], [str],
      [bytes], [list], [tuple]) are the constructors of [Py.value]; a
      [Dict[str, Any]] is a [gmap string Py.value], so that a key that is
      absent and a key that is present with an empty or [None] value stay
      different. [Any] is open: floats, nested dictionaries and objects of
      other classes are not among the values, and no statement below rests
      on a value being one of those listed unless it says so.
    - A Python [str] is a [string]; one character of the [string] stands for
      one character of the Python text, so [s[:200]] is [substring 0 200 s].
    - Effects (the knowledge-graph log, the provider session, [time.sleep],
      [print], the clock) are appended to the [trace] of a [World]; functions
      that can raise live in the state-and-exception monad [M]. *)

From Stdlib Require Import ZArith String List Lia.
From stdpp Require Import gmap strings list pretty.

(** ** Python values *)

Module Py.

#[local] Set Warnings "-register-all".

Inductive value : Type :=
| VNone
| VBool (b : bool)
| VInt (n : Z)
| VStr (s : string)
| VBytes (b : string)
| VList (items : list value)
| VTuple (items : list value).

(** Truth value testing, as [if v:] and [v or w] use it. *)
Definition truthy (v : value) : bool :=
  match v with
  | VNone => false
  | VBool b => b
  | VInt n => negb (n =? 0)%Z
  | VStr s => negb (String.eqb s "")
  | VBytes b => negb (String.eqb b "")
  | VList items | VTuple items => negb (Nat.eqb (length items) 0)
  end.

(** [type(v).__name__] *)
Definition type_name (v : value) : string :=
  match v with
  | VNone => "NoneType"
  | VBool _ => "bool"
  | VInt _ => "int"
  | VStr _ => "str"
  | VBytes _ => "bytes"
  | VList _ => "list"
  | VTuple _ => "tuple"
  end.

(** Instances of [Exception]: the class name and what [str(e)] gives. *)
Record PyException : Type := { exc_class : string; exc_str : string }.

Definition str (e : PyException) : string := exc_str e.

Inductive Result (A : Type) : Type :=
| Ok (a : A)
| Raise (e : PyException).
Arguments Ok {A} a.
Arguments Raise {A} e.

(** [d.get(k, dflt)] and [d.get(k)] *)
Definition get (d : gmap string value) (k : string) (dflt : value) : value :=
  default dflt (d !! k).

Definition get_or_None (d : gmap string value) (k : string) : value :=
  get d k VNone.

(** [v[:n]]: a text, a byte string, a list and a tuple are cut to their
    first [n] items; [None], a [bool] and an [int] are not subscriptable. *)
Definition slice_to (n : nat) (v : value) : Result value :=
  match v with
  | VStr s => Ok (VStr (substring 0 n s))
  | VBytes b => Ok (VBytes (substring 0 n b))
  | VList items => Ok (VList (take n items))
  | VTuple items => Ok (VTuple (take n items))
  | VNone | VBool _ | VInt _ =>
      Raise {| exc_class := "TypeError";
               exc_str := "'" +:+ type_name v +:+ "' object is not subscriptable" |}
  end.

(** [x or y] for [x : Optional[int]] and [y : int] *)
Definition or_int (x : option Z) (y : Z) : Z :=
  match x with
  | Some n => if (n =? 0)%Z then y else n
  | None => y
  end.

(** [len(l)] as a Python [int] *)
Definition len {A} (l : list A) : Z := Z.of_nat (length l).

End Py.

Export Py.

Abbreviation dict := (gmap string value).

(** ** The world outside the agents *)

(** A knowledge graph is known by its identity; what it does with a log
    entry is its own business, and its [log_agent_action] is taken to
    return normally. *)
Definition KnowledgeGraph : Type := nat.

(** The keyword arguments of one [log_agent_action] call. *)
Record LogEntry : Type := {
  agent : string;
  action : string;
  data : dict;
  timestamp : string
}.

Inductive Event : Type :=
| LogAgentAction (kg : KnowledgeGraph) (entry : LogEntry)
| DdgsEnter
| DdgsText (query : string) (max_results : Z)
| DdgsExit
| TimeSleep (milliseconds : nat)
| PrintLine (line : string).

(** What iterating over the value of [ddgs.text(...)] gives: the records it
    yields, and then either exhaustion or an exception. An exception of the
    call itself is the iterable that yields nothing and raises. *)
Record Iterable : Type := {
  yielded : list dict;
  ending : option PyException
}.

(** The provider and the clock are given from outside. [ddgs_open] is the
    exception of [DDGS()] or of entering the session, if any; [clock k] is
    the k-th reading of [datetime.now().isoformat()]. *)
Record Env : Type := {
  ddgs_open : option PyException;
  ddgs_text : string -> Z -> Iterable;
  clock : nat -> string
}.

Record World : Type := {
  trace : list Event;
  clock_reads : nat
}.

(** ** State and exceptions *)

Definition M (S A : Type) : Type := S -> Result A * S.

#[global] Instance M_ret {S} : MRet (M S) := fun A a s => (Ok a, s).

#[global] Instance M_bind {S} : MBind (M S) := fun A B f m s =>
  match m s with
  | (Ok a, s') => f a s'
  | (Raise e, s') => (Raise e, s')
  end.

Definition raise {S A} (e : PyException) : M S A := fun s => (Raise e, s).

(** [try: body  except Exception as e: handler e] *)
Definition try_except {S A} (body : M S A) (handler : PyException -> M S A) : M S A :=
  fun s =>
    match body s with
    | (Ok a, s') => (Ok a, s')
    | (Raise e, s') => handler e s'
    end.

(** [try: body  finally: cleanup] *)
Definition try_finally {S A} (body : M S A) (cleanup : M S unit) : M S A :=
  fun s =>
    match body s with
    | (Ok a, s') => (cleanup ;; mret a) s'
    | (Raise e, s') => (cleanup ;; raise e) s'
    end.

(** A function body with one local variable of type [L]. *)
Definition lift {L S A} (m : M S A) : M (L * S) A := fun '(l, s) =>
  let '(r, s') := m s in (r, (l, s')).

Definition get_local {L S} : M (L * S) L := fun '(l, s) => (Ok l, (l, s)).

Definition set_local {L S} (l : L) : M (L * S) unit := fun '(_, s) => (Ok tt, (l, s)).

Definition with_local {L S A} (init : L) (m : M (L * S) A) : M S A := fun s =>
  let '(r, (_, s')) := m (init, s) in (r, s').

Definition emit (ev : Event) : M World unit := fun w =>
  (Ok tt, {| trace := trace w ++ [ev]; clock_reads := clock_reads w |}).

Definition lift_result {S A} (r : Result A) : M S A := fun s => (r, s).

Section Runtime.

Context (env : Env).

(** [datetime.now().isoformat()] *)
Definition datetime_now_isoformat : M World string := fun w =>
  (Ok (clock env (clock_reads w)),
   {| trace := trace w; clock_reads := S (clock_reads w) |}).

Definition log_agent_action (kg : KnowledgeGraph)
    (agent action : string) (data : dict) (timestamp : string) : M World unit :=
  emit (LogAgentAction kg {| agent := agent; action := action;
                             data := data; timestamp := timestamp |}).

Definition time_sleep (milliseconds : nat) : M World unit :=
  emit (TimeSleep milliseconds).

Definition print (line : string) : M World unit := emit (PrintLine line).

End Runtime.

(** ** src/agents/summarizer.py *)

Record Summary : Type := {
  key_findings : list dict;
  source_count : Z;
  sources : list dict;
  synthesis_method : string
}.

Module SummarizerAgent.

Record t : Type := {
  knowledge_graph : option KnowledgeGraph;
  name : string
}.

Definition __init__ (knowledge_graph : option KnowledgeGraph) : t :=
  {| knowledge_graph := knowledge_graph; name := "SummarizerAgent" |}.

(** The dictionary appended to [key_findings] for [result], given the
    sliced snippet. *)
Definition finding (point : value) (result : dict) : dict :=
  {[ "point" := point;
     "source" := get result "title" (VStr "Unknown");
     "url" := get result "url" (VStr "") ]}.

(** The dictionary appended to [sources] for [result]. *)
Definition source_ref (result : dict) : dict :=
  {[ "title" := get result "title" (VStr "Unknown");
     "url" := get result "url" (VStr "") ]}.

(** The body of [for result in all_results[:10]], with the two lists it
    appends to. *)
Definition loop_body (result : dict) (acc : list dict * list dict)
    : Result (list dict * list dict) :=
  let '(key_findings, sources) := acc in
  match slice_to 200 (get result "snippet" (VStr "")) with
  | Raise e => Raise e
  | Ok point =>
      let key_findings := key_findings ++ [finding point result] in
      let sources :=
        if truthy (get_or_None result "url")
        then sources ++ [source_ref result]
        else sources in
      Ok (key_findings, sources)
  end.

Fixpoint for_each (working_set : list dict) (acc : list dict * list dict)
    : Result (list dict * list dict) :=
  match working_set with
  | [] => Ok acc
  | result :: rest =>
      match loop_body result acc with
      | Raise e => Raise e
      | Ok acc' => for_each rest acc'
      end
  end.

Definition _synthesize_information (search_results : list (list dict)) : Result Summary :=
  let all_results := concat search_results in
  match for_each (take 10 all_results) ([], []) with
  | Raise e => Raise e
  | Ok (key_findings, sources) =>
      Ok {| key_findings := key_findings;
            source_count := len all_results;
            sources := take 15 sources;
            synthesis_method := "heuristic_extraction" |}
  end.

Section WithEnv.

Context (env : Env).

Definition _log_action (self : t) (action : string) (data : dict) : M World unit :=
  match knowledge_graph self with
  | Some kg =>
      timestamp ← datetime_now_isoformat env;
      log_agent_action kg (name self) action data timestamp
  | None => mret tt
  end.

Definition summarize (self : t) (search_results : list (list dict)) : M World Summary :=
  _log_action self "summarization_started"
    {[ "source_count" := VInt (len search_results) ]} ;;
  summary ← lift_result (_synthesize_information search_results);
  _log_action self "summarization_completed"
    {[ "source_count" := VInt (len search_results);
       "key_points" := VInt (len (key_findings summary)) ]} ;;
  mret summary.

End WithEnv.

End SummarizerAgent.

(** ** src/agents/search.py *)

Module SearchAgent.

Record t : Type := {
  knowledge_graph : option KnowledgeGraph;
  name : string;
  max_results : Z
}.

Definition __init__ (knowledge_graph : option KnowledgeGraph) : t :=
  {| knowledge_graph := knowledge_graph; name := "SearchAgent"; max_results := 5 |}.

(** The dictionary appended for the record [result] at index [idx]. *)
Definition normalize (idx : Z) (result : dict) : dict :=
  {[ "rank" := VInt (idx + 1);
     "title" := get result "title" (VStr "No title");
     "snippet" := get result "body" (VStr "No description");
     "url" := get result "href" (VStr "");
     "source" := VStr "duckduckgo" ]}.

Section WithEnv.

Context (env : Env).

(** [with DDGS() as ddgs: body] *)
Definition with_DDGS {A} (body : M (list dict * World) A) : M (list dict * World) A :=
  match ddgs_open env with
  | Some e => raise e
  | None =>
      lift (emit DdgsEnter) ;;
      try_finally body (lift (emit DdgsExit))
  end.

(** [ddgs.text(query, max_results=max_results)] *)
Definition text (query : string) (max_results : Z) : M (list dict * World) Iterable :=
  lift (emit (DdgsText query max_results)) ;;
  mret (ddgs_text env query max_results).

(** [for idx, result in enumerate(search_results): ...] from index [idx]
    on, over the records still to come; [results] is the local list. *)
Fixpoint for_enumerate (idx : Z) (records : list dict) (ending : option PyException)
    : M (list dict * World) unit :=
  match records with
  | result :: rest =>
      results ← get_local;
      set_local (results ++ [normalize idx result]) ;;
      lift (time_sleep 500) ;;
      for_enumerate (idx + 1) rest ending
  | [] =>
      match ending with
      | Some e => raise e
      | None => mret tt
      end
  end.

Definition _execute_search (query : string) (max_results : Z) : M World (list dict) :=
  with_local [] (
    try_except
      (with_DDGS (
         search_results ← text query max_results;
         for_enumerate 0 (yielded search_results) (ending search_results)))
      (fun e => lift (print ("Search error: " +:+ str e))) ;;
    get_local).

Definition _log_action (self : t) (action : string) (data : dict) : M World unit :=
  match knowledge_graph self with
  | Some kg =>
      timestamp ← datetime_now_isoformat env;
      log_agent_action kg (name self) action data timestamp
  | None => mret tt
  end.

Definition search (self : t) (query : string) (max_results : option Z)
    : M World (list dict) :=
  let max_results := or_int max_results (SearchAgent.max_results self) in
  _log_action self "search_started" {[ "query" := VStr query ]} ;;
  try_except
    (results ← _execute_search query max_results;
     _log_action self "search_completed"
       {[ "query" := VStr query;
          "result_count" := VInt (len results);
          "success" := VBool true ]} ;;
     mret results)
    (fun e =>
       _log_action self "search_failed"
         {[ "query" := VStr query; "error" := VStr (str e) ]} ;;
       mret []).

End WithEnv.

End SearchAgent.

(** ** Test inputs *)

Module Examples.

Definition nowhere : World := {| trace := []; clock_reads := 0 |}.

Definition record_n (n : nat) : dict :=
  {[ "title" := VStr ("t" +:+ pretty n);
     "body" := VStr "b";
     "href" := VStr "h" ]}.

(** A provider that yields seven records whatever the limit it is given. *)
Definition seven : Env :=
  {| ddgs_open := None;
     ddgs_text := fun _ _ => {| yielded := map record_n (seq 0 7); ending := None |};
     clock := fun k => pretty k |}.

(** A provider whose [text] call raises. *)
Definition failing : Env :=
  {| ddgs_open := None;
     ddgs_text := fun _ _ =>
       {| yielded := [];
          ending := Some {| exc_class := "RuntimeError"; exc_str := "boom" |} |};
     clock := fun k => pretty k |}.

(** A provider that yields two records and then raises. *)
Definition breaking : Env :=
  {| ddgs_open := None;
     ddgs_text := fun _ _ =>
       {| yielded := map record_n (seq 0 2);
          ending := Some {| exc_class := "TimeoutError"; exc_str := "timed out" |} |};
     clock := fun k => pretty k |}.

(** A provider record with an empty title, a null body and no link. *)
Definition sparse_record : dict :=
  {[ "title" := VStr ""; "body" := VNone ]}.

Definition sparse : Env :=
  {| ddgs_open := None;
     ddgs_text := fun _ _ => {| yielded := [sparse_record]; ending := None |};
     clock := fun k => pretty k |}.

(** A provider that yields one record, with a title and nothing else. *)
Definition titled_record : dict := {[ "title" := VStr "t" ]}.

Definition titled : Env :=
  {| ddgs_open := None;
     ddgs_text := fun _ _ => {| yielded := [titled_record]; ending := None |};
     clock := fun k => pretty k |}.

(** The records of the summarizer's scenario. *)
Definition result_A (snippet : string) : dict :=
  {[ "title" := VStr "A"; "snippet" := VStr snippet; "url" := VStr "u1" ]}.

(** ["x" * 300] *)
Definition x300 : string := String.concat "" (replicate 300 "x").

Definition result_B : dict :=
  {[ "title" := VStr "B"; "snippet" := VStr "short"; "url" := VStr "" ]}.

(** A record as [search] builds one when the provider's body is [None]. *)
Definition result_null : dict :=
  {[ "title" := VStr "N"; "snippet" := VNone; "url" := VStr "u" ]}.

End Examples.

(** ** Vocabulary of the statements *)

(** The events a call added to the trace: those of [w'] after those of [w]. *)
Definition emitted (w w' : World) : list Event := drop (length (trace w)) (trace w').

Definition log_entries (events : list Event) : list LogEntry :=
  omap (fun ev => match ev with LogAgentAction _ entry => Some entry | _ => None end) events.


(** A result record whose snippet, when it has one, is a text. *)
Definition snippet_is_text (result : dict) : bool :=
  match result !! "snippet" with
  | Some (VStr _) | None => true
  | Some _ => false
  end.

Definition snippet_text (result : dict) : string :=
  match result !! "snippet" with
  | Some (VStr s) => s
  | _ => ""
  end.

Definition well_typed (search_results : list (list dict)) : Prop :=
  Forall (Forall (fun result => snippet_is_text result = true)) search_results.

Definition has_url (result : dict) : bool := truthy (get_or_None result "url").

(** The finding of a record whose snippet is a text or is absent. *)
Definition finding_of (result : dict) : dict :=
  SummarizerAgent.finding (VStr (substring 0 200 (snippet_text result))) result.

(** The records the provider hands over in one session. *)
Definition delivered (env : Env) (query : string) (max_results : Z) : list dict :=
  match ddgs_open env with
  | Some _ => []
  | None => yielded (ddgs_text env query max_results)
  end.

(** The results for [records], the first of them at index [idx]. *)
Fixpoint ranked (idx : Z) (records : list dict) : list dict :=
  match records with
  | [] => []
  | result :: rest => SearchAgent.normalize idx result :: ranked (idx + 1) rest
  end.

(** What the print in [_execute_search] writes, if the session fails. *)
Definition error_line (failed : option PyException) : list Event :=
  match failed with
  | Some e => [PrintLine ("Search error: " +:+ str e)]
  | None => []
  end.

(** The events of one provider session. *)
Definition session_events (env : Env) (query : string) (max_results : Z) : list Event :=
  match ddgs_open env with
  | Some e => error_line (Some e)
  | None =>
      let search_results := ddgs_text env query max_results in
      [DdgsEnter; DdgsText query max_results]
      ++ replicate (length (yielded search_results)) (TimeSleep 500)
      ++ [DdgsExit] ++ error_line (ending search_results)
  end.

(** The event of one [_log_action] call, with the clock read [reads] times
    before, and the number of readings after it. *)
Definition log_event (env : Env) (kg : option KnowledgeGraph)
    (agent action : string) (data : dict) (reads : nat) : list Event :=
  match kg with
  | Some kg => [LogAgentAction kg {| agent := agent; action := action; data := data;
                                     timestamp := clock env reads |}]
  | None => []
  end.

Definition reads_after (kg : option KnowledgeGraph) (reads : nat) : nat :=
  match kg with
  | Some _ => S reads
  | None => reads
  end.

(** The events of one [search] call, with the clock read [reads] times before. *)
Definition search_events (env : Env) (self : SearchAgent.t) (query : string)
    (max_results : Z) (reads : nat) : list Event :=
  log_event env (SearchAgent.knowledge_graph self) (SearchAgent.name self) "search_started"
    {[ "query" := VStr query ]} reads
  ++ session_events env query max_results
  ++ log_event env (SearchAgent.knowledge_graph self) (SearchAgent.name self) "search_completed"
       {[ "query" := VStr query;
          "result_count" := VInt (len (ranked 0 (delivered env query max_results)));
          "success" := VBool true ]}
       (reads_after (SearchAgent.knowledge_graph self) reads).

Definition actions (events : list Event) : list string :=
  map action (log_entries events).

Definition ranks (results : list dict) : list (option value) :=
  map (fun result : dict => result !! "rank") results.

(** The exception that ends the provider session, if one does. *)
Definition failure (env : Env) (query : string) (max_results : Z) : option PyException :=
  match ddgs_open env with
  | Some e => Some e
  | None => ending (ddgs_text env query max_results)
  end.

(** The lines printed, the sleeps taken and the provider session's own
    events among [events], each in order. *)
Definition printed (events : list Event) : list string :=
  omap (fun ev => match ev with PrintLine line => Some line | _ => None end) events.


Definition provider_events (events : list Event) : list Event :=
  omap (fun ev => match ev with
                  | DdgsEnter | DdgsText _ _ | DdgsExit => Some ev
                  | _ => None
                  end) events.

(** The keys of a dictionary that [search] returns. *)
Definition result_keys : gset string :=
  {[ "rank"; "title"; "snippet"; "url"; "source" ]}.

(** A provider record whose body, when it has one, is a text. *)
Definition body_is_text (record : dict) : bool :=
  match record !! "body" with
  | Some (VStr _) | None => true
  | Some _ => false
  end.

(** The [TypeError] of slicing [v], a value that is no text. *)
Definition not_subscriptable (v : value) : PyException :=
  {| exc_class := "TypeError";
     exc_str := "'" +:+ type_name v +:+ "' object is not subscriptable" |}.

(** The source that a finding with a url stands for. *)
Definition finding_has_url (finding : dict) : bool :=
  truthy (get_or_None finding "url").

Definition cited (finding : dict) : dict :=
  {[ "title" := get_or_None finding "source"; "url" := get_or_None finding "url" ]}.

(** What [_synthesize_information] returns when it returns. *)
Definition summary_of (search_results : list (list dict)) : Summary :=
  {| key_findings := map finding_of (take 10 (concat search_results));
     source_count := len (concat search_results);
     sources := map SummarizerAgent.source_ref
                  (filter has_url (take 10 (concat search_results)));
     synthesis_method := "heuristic_extraction" |}.

(** The point of the finding of [result]: its sliced snippet ([None] stands
    in where slicing raises and there is no finding). *)
Definition sliced_snippet (result : dict) : value :=
  match slice_to 200 (get result "snippet" (VStr "")) with
  | Ok point => point
  | Raise _ => VNone
  end.

(** [None], a [bool] or an [int]: the values that cannot be sliced. *)
Definition not_sliceable (v : value) : bool :=
  match v with
  | VNone | VBool _ | VInt _ => true
  | _ => false
  end.

(** The keys of a finding. *)
Definition finding_keys : gset string := {[ "point"; "source"; "url" ]}.

(** The finding that [summarize] makes from the result that [search] makes
    from a provider record. *)
Definition pipeline_finding (record : dict) : dict :=
  {[ "point" := VStr (substring 0 200
                        (match record !! "body" with
                         | Some (VStr s) => s
                         | Some _ => ""
                         | None => "No description"
                         end));
     "source" := get record "title" (VStr "No title");
     "url" := get record "href" (VStr "") ]}.

(** The source that [summarize] makes from the result of a provider record
    with a link. *)
Definition pipeline_source (record : dict) : dict :=
  {[ "title" := get record "title" (VStr "No title");
     "url" := get record "href" (VStr "") ]}.

Definition has_href (record : dict) : bool := truthy (get_or_None record "href").

(** * Properties *)

(** ** The monad *)

Lemma bind_run {S A B} (m : M S A) (f : A -> M S B) (s : S) :
  (m ≫= f) s = match m s with
               | (Ok a, s') => f a s'
               | (Raise e, s') => (Raise e, s')
               end.
Proof. reflexivity. Qed.

Lemma emitted_app (w : World) (events : list Event) (reads : nat) :
  emitted w {| trace := trace w ++ events; clock_reads := reads |} = events.
Proof. unfold emitted; simpl. by rewrite drop_app_length. Qed.

(** ** The summarizer *)

Section Summarizer.

Import SummarizerAgent Examples.

Lemma slice_snippet (result : dict) :
  snippet_is_text result = true ->
  slice_to 200 (get result "snippet" (VStr "")) =
  Ok (VStr (substring 0 200 (snippet_text result))).
Proof.
  unfold snippet_is_text, snippet_text, get.
  destruct (result !! "snippet") as [[]|]; simpl; congruence.
Qed.

Lemma for_each_typed (working_set key_findings sources : list dict) :
  Forall (fun result => snippet_is_text result = true) working_set ->
  for_each working_set (key_findings, sources) =
  Ok (key_findings ++ map finding_of working_set,
      sources ++ map source_ref (filter has_url working_set)).
Proof.
  intros Hty. revert key_findings sources.
  induction Hty as [|result rest Hr _ IH]; intros key_findings sources.
  - simpl. by rewrite !app_nil_r.
  - simpl. rewrite (slice_snippet _ Hr). fold (has_url result).
    rewrite filter_cons. destruct (has_url result) eqn:Hurl.
    + rewrite decide_True by done. rewrite IH. simpl.
      by rewrite <- !app_assoc.
    + rewrite decide_False by (by intros ?). rewrite IH.
      by rewrite <- !app_assoc.
Qed.

(** Whatever the records are, the loop adds one finding per record and at
    most one source per record. *)
Lemma for_each_lengths (working_set key_findings sources kf' src' : list dict) :
  for_each working_set (key_findings, sources) = Ok (kf', src') ->
  length kf' = (length key_findings + length working_set)%nat /\
  (length src' <= length sources + length working_set)%nat.
Proof.
  revert key_findings sources.
  induction working_set as [|result rest IH]; intros key_findings sources; simpl.
  - intros [= <- <-]. lia.
  - destruct (slice_to 200 _) as [point|e]; [|done].
    destruct (truthy _); intros H; apply IH in H;
      rewrite ?length_app in H; simpl in H; lia.
Qed.

Lemma well_typed_working_set (search_results : list (list dict)) :
  well_typed search_results ->
  Forall (fun result => snippet_is_text result = true) (take 10 (concat search_results)).
Proof.
  intros H. apply Forall_take. by apply Forall_concat.
Qed.

Lemma synthesize_typed (search_results : list (list dict)) :
  well_typed search_results ->
  _synthesize_information search_results =
  Ok {| key_findings := map finding_of (take 10 (concat search_results));
        source_count := len (concat search_results);
        sources := take 15 (map source_ref
                     (filter has_url (take 10 (concat search_results))));
        synthesis_method := "heuristic_extraction" |}.
Proof.
  intros H. unfold _synthesize_information.
  by rewrite (for_each_typed _ _ _ (well_typed_working_set _ H)).
Qed.

Lemma summarizer_log_action_run (env : Env) (self : t) (action : string)
    (data : dict) (w : World) :
  _log_action env self action data w =
  (Ok tt,
   match knowledge_graph self with
   | Some kg =>
       {| trace := trace w ++ [LogAgentAction kg
            {| agent := name self; action := action; data := data;
               timestamp := clock env (clock_reads w) |}];
          clock_reads := S (clock_reads w) |}
   | None => w
   end).
Proof. unfold _log_action. by destruct (knowledge_graph self). Qed.

(** What [summarize] returns or raises is what [_synthesize_information]
    does: the agent, the clock and the world have no part in it. *)
Lemma summarize_result (env : Env) (self : t) (search_results : list (list dict))
    (w : World) :
  fst (summarize env self search_results w) = _synthesize_information search_results.
Proof.
  unfold summarize. rewrite bind_run, summarizer_log_action_run.
  rewrite bind_run. unfold lift_result at 1.
  destruct (_synthesize_information search_results) as [summary|e]; [|done].
  by rewrite bind_run, summarizer_log_action_run.
Qed.

Lemma summarize_returns (env : Env) (self : t) (search_results : list (list dict))
    (w : World) (summary : Summary) :
  _synthesize_information search_results = Ok summary ->
  exists w', summarize env self search_results w = (Ok summary, w').
Proof.
  intros H. pose proof (summarize_result env self search_results w) as Hr.
  rewrite H in Hr. destruct (summarize env self search_results w) as [r w'].
  simpl in Hr. subst r. by exists w'.
Qed.

Lemma synthesize_bounds (search_results : list (list dict)) (summary : Summary) :
  _synthesize_information search_results = Ok summary ->
  (length (key_findings summary) <= 10)%nat /\
  (length (sources summary) <= length (key_findings summary))%nat /\
  source_count summary = len (concat search_results).
Proof.
  unfold _synthesize_information.
  destruct (for_each _ _) as [[kf src]|e] eqn:Hloop; [|done].
  intros [= <-]; simpl. apply for_each_lengths in Hloop as [Hkf Hsrc].
  simpl in *. rewrite length_take in *. lia.
Qed.

Lemma concat_empty_batches {A} (batches : list (list A)) :
  Forall (fun batch => batch = []) batches -> concat batches = [].
Proof. induction 1 as [|batch rest -> _ IH]; [done|]. exact IH. Qed.

Lemma length_substring_0 (n : nat) (s : string) :
  String.length (substring 0 n s) = min n (String.length s).
Proof.
  revert s. induction n as [|n IH]; intros [|c s]; simpl; auto.
Qed.

(** C2: on every sequence of batches of result records, [summarize] returns
    a summary with at most 10 key findings and at most 15 sources, whose
    [source_count] is the total number of records of all the batches. *)
Theorem summarize_bounds (env : Env) (self : t) (search_results : list (list dict))
    (w : World) :
  well_typed search_results ->
  exists summary w',
    summarize env self search_results w = (Ok summary, w') /\
    (length (key_findings summary) <= 10)%nat /\
    (length (sources summary) <= 15)%nat /\
    source_count summary = Z.of_nat (sum_list (length <$> search_results)).
Proof.
  intros Hty. pose proof (synthesize_typed _ Hty) as Hs.
  destruct (summarize_returns env self _ w _ Hs) as [w' Hrun].
  eexists _, w'. split; [exact Hrun|].
  apply synthesize_bounds in Hs as (Hkf & Hsrc & Hcount).
  repeat split; [exact Hkf|lia|].
  rewrite Hcount. unfold len. by rewrite length_concat.
Qed.

Lemma summarize_bounds_witness :
  exists summary w',
    summarize seven (__init__ (Some 0%nat)) [[result_A x300; result_B]] nowhere
      = (Ok summary, w') /\
    (length (key_findings summary) <= 10)%nat /\
    (length (sources summary) <= 15)%nat /\
    source_count summary = 2%Z.
Proof.
  apply (summarize_bounds seven (__init__ (Some 0%nat)) [[result_A x300; result_B]] nowhere).
  repeat (constructor; try reflexivity).
Defined.

(** C7: the sources come from the same first ten records of the flattened
    input as the key findings, so there are never more sources than
    findings, never more than ten, and cutting them at 15 removes nothing. *)
Theorem sources_within_findings (env : Env) (self : t)
    (search_results : list (list dict)) (w : World) :
  well_typed search_results ->
  exists summary w',
    summarize env self search_results w = (Ok summary, w') /\
    key_findings summary = map finding_of (take 10 (concat search_results)) /\
    sources summary =
      map source_ref (filter has_url (take 10 (concat search_results))) /\
    (length (sources summary) <= length (key_findings summary))%nat /\
    (length (key_findings summary) <= 10)%nat.
Proof.
  intros Hty. pose proof (synthesize_typed _ Hty) as Hs.
  destruct (summarize_returns env self _ w _ Hs) as [w' Hrun].
  eexists _, w'. split; [exact Hrun|].
  apply synthesize_bounds in Hs as (Hkf & Hsrc & _). simpl in *.
  repeat split; [|exact Hsrc|exact Hkf].
  apply take_ge. rewrite length_map.
  etrans; [apply length_filter|]. rewrite length_take. lia.
Qed.

Lemma sources_within_findings_witness :
  exists summary w',
    summarize seven (__init__ None) [[result_A x300]; [result_B]] nowhere
      = (Ok summary, w') /\
    key_findings summary = map finding_of (take 10 [result_A x300; result_B]) /\
    sources summary = map source_ref (filter has_url (take 10 [result_A x300; result_B])) /\
    (length (sources summary) <= length (key_findings summary))%nat /\
    (length (key_findings summary) <= 10)%nat.
Proof.
  apply (sources_within_findings seven (__init__ None) [[result_A x300]; [result_B]] nowhere).
  repeat (constructor; try reflexivity).
Defined.

(** C8: what [summarize] returns for given batches is the same whatever the
    agent, the clock, the knowledge graph and the world it runs in; in
    particular a second call after a first one returns the same summary. *)
Theorem summarize_deterministic (env1 env2 : Env) (self1 self2 : t)
    (search_results : list (list dict)) (w1 w2 : World) :
  fst (summarize env1 self1 search_results w1) =
    fst (summarize env2 self2 search_results w2) /\
  fst (summarize env1 self1 search_results
         (snd (summarize env1 self1 search_results w1))) =
    fst (summarize env1 self1 search_results w1).
Proof. by rewrite !summarize_result. Qed.

Lemma concat_lookup_batch {A} (batches : list (list A)) (b j : nat)
    (batch : list A) (x : A) :
  batches !! b = Some batch -> batch !! j = Some x ->
  concat batches !! (sum_list (length <$> take b batches) + j)%nat = Some x.
Proof.
  revert b. induction batches as [|first others IH]; intros [|b] Hb Hj; simpl in *;
    try done.
  - injection Hb as ->. by apply lookup_app_l_Some.
  - rewrite <- Nat.add_assoc, lookup_app_r by lia.
    rewrite (Nat.add_comm (length first)), Nat.add_sub.
    by apply IH.
Qed.

(** C9: there are exactly min(10, n) key findings for n records in all the
    batches together; record j of batch b is at position i = (number of
    records in the batches before b) + j, and when i < 10 the i-th finding
    is made from it: its point is the first 200 characters of the snippet
    (the empty text without one), its source the title (or "Unknown"), its
    url the url (or the empty text); batches without records give no
    finding. *)
Theorem key_findings_follow_input (env : Env) (self : t)
    (search_results : list (list dict)) (w : World) :
  well_typed search_results ->
  exists summary w',
    summarize env self search_results w = (Ok summary, w') /\
    length (key_findings summary) = min 10 (sum_list (length <$> search_results)) /\
    (forall (b j : nat) (batch : list dict) (result : dict),
       search_results !! b = Some batch ->
       batch !! j = Some result ->
       (sum_list (length <$> take b search_results) + j < 10)%nat ->
       key_findings summary !! (sum_list (length <$> take b search_results) + j)%nat =
       Some {[ "point" :=
                 VStr (substring 0 200
                         (match result !! "snippet" with
                          | Some (VStr s) => s
                          | _ => ""
                          end));
               "source" :=
                 match result !! "title" with Some v => v | None => VStr "Unknown" end;
               "url" :=
                 match result !! "url" with Some v => v | None => VStr "" end ]}) /\
    (forall i : nat, (10 <= i)%nat -> key_findings summary !! i = None) /\
    (Forall (fun batch => batch = []) search_results -> key_findings summary = []).
Proof.
  intros Hty. pose proof (synthesize_typed _ Hty) as Hs.
  destruct (summarize_returns env self _ w _ Hs) as [w' Hrun].
  eexists _, w'. split; [exact Hrun|]. simpl.
  split; [|split; [|split]].
  - by rewrite length_map, length_take, length_concat.
  - intros b j batch result Hb Hj Hi.
    rewrite list_lookup_fmap, lookup_take_lt by done.
    by rewrite (concat_lookup_batch _ _ _ _ _ Hb Hj).
  - intros i Hi. apply lookup_ge_None. rewrite length_map, length_take. lia.
  - intros Hempty. by rewrite (concat_empty_batches _ Hempty).
Qed.

Lemma key_findings_follow_input_witness :
  exists summary w',
    summarize seven (__init__ None) [[]; [result_B]; [result_A x300]] nowhere
      = (Ok summary, w') /\
    length (key_findings summary) = 2%nat /\
    (forall (b j : nat) (batch : list dict) (result : dict),
       [[]; [result_B]; [result_A x300]] !! b = Some batch ->
       batch !! j = Some result ->
       (sum_list (length <$> take b [[]; [result_B]; [result_A x300]]) + j < 10)%nat ->
       key_findings summary
         !! (sum_list (length <$> take b [[]; [result_B]; [result_A x300]]) + j)%nat =
       Some {[ "point" :=
                 VStr (substring 0 200
                         (match result !! "snippet" with
                          | Some (VStr s) => s
                          | _ => ""
                          end));
               "source" :=
                 match result !! "title" with Some v => v | None => VStr "Unknown" end;
               "url" :=
                 match result !! "url" with Some v => v | None => VStr "" end ]}) /\
    (forall i : nat, (10 <= i)%nat -> key_findings summary !! i = None) /\
    (Forall (fun batch => batch = []) [[]; [result_B]; [result_A x300]] ->
     key_findings summary = []).
Proof.
  apply (key_findings_follow_input seven (__init__ None)
           [[]; [result_B]; [result_A x300]] nowhere).
  repeat (constructor; try reflexivity).
Defined.

(** C6: for the two records A (a snippet of 300 characters, url "u1") and
    B (snippet "short", empty url) in one batch, [source_count] is 2, the
    first point is the first 200 characters of A's snippet and nothing more,
    the second point is "short", and the only source is A's. *)
Theorem summarize_scenario (env : Env) (self : t) (w : World) (snippet : string) :
  String.length snippet = 300%nat ->
  exists summary w',
    summarize env self [[result_A snippet; result_B]] w = (Ok summary, w') /\
    source_count summary = 2%Z /\
    length (key_findings summary) = 2%nat /\
    key_findings summary !! 0%nat ≫= (.!! "point")
      = Some (VStr (substring 0 200 snippet)) /\
    String.length (substring 0 200 snippet) = 200%nat /\
    key_findings summary !! 1%nat ≫= (.!! "point") = Some (VStr "short") /\
    sources summary = [ {[ "title" := VStr "A"; "url" := VStr "u1" ]} ].
Proof.
  intros Hlen.
  assert (well_typed [[result_A snippet; result_B]]) as Hty
    by (repeat (constructor; try reflexivity)).
  pose proof (synthesize_typed _ Hty) as Hs.
  destruct (summarize_returns env self _ w _ Hs) as [w' Hrun].
  eexists _, w'. split; [exact Hrun|].
  rewrite length_substring_0, Hlen.
  repeat split; reflexivity.
Qed.

Lemma summarize_scenario_witness :
  exists summary w',
    summarize seven (__init__ None) [[result_A x300; result_B]] nowhere
      = (Ok summary, w') /\
    source_count summary = 2%Z /\
    length (key_findings summary) = 2%nat /\
    key_findings summary !! 0%nat ≫= (.!! "point")
      = Some (VStr (substring 0 200 x300)) /\
    String.length (substring 0 200 x300) = 200%nat /\
    key_findings summary !! 1%nat ≫= (.!! "point") = Some (VStr "short") /\
    sources summary = [ {[ "title" := VStr "A"; "url" := VStr "u1" ]} ].
Proof.
  apply (summarize_scenario seven (__init__ None) nowhere x300).
  reflexivity.
Defined.

(** Outside the result records: a snippet that is [None] cannot be sliced,
    and [summarize] raises the [TypeError]. *)
Example summarize_null_snippet :
  fst (summarize seven (__init__ None) [[result_null]] nowhere) =
  Raise {| exc_class := "TypeError";
           exc_str := "'NoneType' object is not subscriptable" |}.
Proof. reflexivity. Qed.

End Summarizer.

(** ** The search agent *)

Section Search.

Import SearchAgent Examples.

Lemma normalize_rank (idx : Z) (result : dict) :
  normalize idx result !! "rank" = Some (VInt (idx + 1)).
Proof. reflexivity. Qed.

Lemma length_ranked (records : list dict) (idx : Z) :
  length (ranked idx records) = length records.
Proof.
  revert idx. induction records as [|r rest IH]; intros idx; simpl; [done|].
  by rewrite IH.
Qed.

Lemma ranked_lookup (records : list dict) (idx : Z) (i : nat) :
  ranked idx records !! i = normalize (idx + Z.of_nat i) <$> records !! i.
Proof.
  revert idx i. induction records as [|r rest IH]; intros idx [|i]; simpl; try done.
  - by rewrite Z.add_0_r.
  - rewrite IH. do 2 f_equal. lia.
Qed.

Lemma ranks_ranked (records : list dict) (idx : Z) :
  ranks (ranked idx records) =
  map (fun k => Some (VInt (idx + Z.of_nat k))) (seq 1 (length records)).
Proof.
  revert idx. induction records as [|r rest IH]; intros idx; [done|].
  simpl. rewrite normalize_rank. f_equal.
  unfold ranks in IH. rewrite IH, <- (seq_shift (length rest) 1), map_map.
  apply map_ext. intros k. do 2 f_equal. lia.
Qed.

Lemma search_log_action_run (env : Env) (self : t) (action : string)
    (data : dict) (w : World) :
  _log_action env self action data w =
  (Ok tt,
   {| trace := trace w ++ log_event env (knowledge_graph self) (name self)
                            action data (clock_reads w);
      clock_reads := reads_after (knowledge_graph self) (clock_reads w) |}).
Proof.
  unfold _log_action. destruct (knowledge_graph self); [done|].
  destruct w; simpl. by rewrite app_nil_r.
Qed.

Lemma for_enumerate_run (records results : list dict)
    (ending : option PyException) (idx : Z) (w : World) :
  for_enumerate idx records ending (results, w) =
  (match ending with Some e => Raise e | None => Ok tt end : Result unit,
   (results ++ ranked idx records,
    {| trace := trace w ++ replicate (length records) (TimeSleep 500);
       clock_reads := clock_reads w |})).
Proof.
  revert idx results w.
  induction records as [|r rest IH]; intros idx results w; simpl.
  - rewrite !app_nil_r. destruct w; simpl. by destruct ending.
  - rewrite !bind_run; simpl. rewrite !bind_run; simpl. rewrite !bind_run; simpl.
    rewrite IH; simpl. by rewrite <- !app_assoc.
Qed.

(** [_execute_search] never raises: whatever the provider does, it returns
    the results of the records handed over before the session ended. *)
Lemma execute_search_run (env : Env) (query : string) (max_results : Z) (w : World) :
  _execute_search env query max_results w =
  (Ok (ranked 0 (delivered env query max_results)),
   {| trace := trace w ++ session_events env query max_results;
      clock_reads := clock_reads w |}).
Proof.
  unfold _execute_search, with_local, with_DDGS, delivered, session_events.
  rewrite bind_run. unfold try_except.
  destruct (ddgs_open env) as [e|]; [done|].
  rewrite bind_run; simpl. unfold try_finally, text.
  rewrite !bind_run; simpl. rewrite for_enumerate_run.
  destruct (ending (ddgs_text env query max_results)) as [e|]; simpl;
    by rewrite <- !app_assoc.
Qed.

Lemma search_run (env : Env) (self : t) (query : string) (max_results : option Z)
    (w : World) :
  let limit := or_int max_results (SearchAgent.max_results self) in
  search env self query max_results w =
  (Ok (ranked 0 (delivered env query limit)),
   {| trace := trace w ++ search_events env self query limit (clock_reads w);
      clock_reads := reads_after (knowledge_graph self)
                       (reads_after (knowledge_graph self) (clock_reads w)) |}).
Proof.
  intros limit. unfold search. fold limit.
  rewrite bind_run, search_log_action_run. unfold try_except.
  rewrite bind_run, execute_search_run.
  rewrite bind_run, search_log_action_run; simpl.
  unfold search_events. by rewrite <- !app_assoc.
Qed.


Lemma log_entries_sleeps (n : nat) :
  log_entries (replicate n (TimeSleep 500)) = [].
Proof. induction n as [|n IH]; [done|exact IH]. Qed.


(** The only actions [search] ever logs are the start and the completion:
    no provider failure reaches the handler that logs "search_failed". *)
Lemma search_actions (env : Env) (self : t) (query : string)
    (max_results : option Z) (w : World) :
  actions (emitted w (snd (search env self query max_results w))) =
  match knowledge_graph self with
  | Some _ => ["search_started"; "search_completed"]
  | None => []
  end.
Proof.
  rewrite search_run; simpl. rewrite emitted_app.
  unfold actions, search_events, session_events, log_entries.
  rewrite !omap_app. fold log_entries.
  destruct (knowledge_graph self), (ddgs_open env); simpl; try done;
    rewrite !omap_app; fold log_entries; rewrite log_entries_sleeps;
    by destruct (ending _).
Qed.

(** C1: with a knowledge graph attached and a provider whose call raises,
    [search] returns the empty list, prints the error, and logs a start and
    a successful completion with zero results; it logs no failure. *)
Theorem search_provider_failure (query : string) :
  exists w',
    search failing (__init__ (Some 0%nat)) query None nowhere = (Ok [], w') /\
    trace w' =
      [ LogAgentAction 0 {| agent := "SearchAgent"; action := "search_started";
                            data := {[ "query" := VStr query ]}; timestamp := "0" |};
        DdgsEnter; DdgsText query 5; DdgsExit;
        PrintLine "Search error: boom";
        LogAgentAction 0 {| agent := "SearchAgent"; action := "search_completed";
                            data := {[ "query" := VStr query;
                                       "result_count" := VInt 0;
                                       "success" := VBool true ]};
                            timestamp := "1" |} ] /\
    "search_failed" ∉ actions (trace w').
Proof.
  eexists. split; [reflexivity|]. split; [reflexivity|].
  simpl. intros Hin.
  repeat (apply elem_of_cons in Hin as [Hin|Hin]; [discriminate Hin|]).
  by apply elem_of_nil in Hin.
Qed.

(** A provider that fails after two records: both are returned, and the
    call is logged as a success with two results. *)
Example search_partial_results :
  exists results w',
    search breaking (__init__ (Some 0%nat)) "q" None nowhere = (Ok results, w') /\
    length results = 2%nat /\
    actions (trace w') = ["search_started"; "search_completed"].
Proof. eexists _, _. split; [reflexivity|]. by split. Qed.

(** C3: with [max_results=3] and a provider that yields seven records,
    [search] returns seven results, ranked 1 to 7, where the claim and the
    docstring ("Maximum number of results to return") allow three. *)
Lemma search_over_yield :
  length (yielded (ddgs_text seven "q" 3)) = 7%nat /\
  exists results w',
    search seven (__init__ None) "q" (Some 3%Z) nowhere = (Ok results, w') /\
    length results = 7%nat /\
    length results <> 3%nat /\
    ranks results = map (fun k => Some (VInt k)) [1; 2; 3; 4; 5; 6; 7]%Z.
Proof.
  split; [reflexivity|]. eexists _, _. split; [reflexivity|].
  split; [reflexivity|]. split; [discriminate|reflexivity].
Qed.

(** How the code comes to it: [search] returns one result for each record
    the provider hands over and cuts nothing off, so the result is as long
    as what the provider yields for the limit it is given. *)
Theorem search_returns_all_delivered (env : Env) (self : t) (query : string)
    (max_results : option Z) (w : World) :
  exists results w',
    search env self query max_results w = (Ok results, w') /\
    length results =
      length (delivered env query (or_int max_results (SearchAgent.max_results self))) /\
    ranks results = map (fun k => Some (VInt (Z.of_nat k))) (seq 1 (length results)).
Proof.
  eexists _, _. split; [apply search_run|].
  rewrite length_ranked. split; [done|]. apply ranks_ranked.
Qed.



(** C5: the ranks of the list [search] returns are 1, 2, ..., up to its
    length, in the order of the list. *)
Theorem search_ranks (env : Env) (self : t) (query : string)
    (max_results : option Z) (w : World) :
  exists results w',
    search env self query max_results w = (Ok results, w') /\
    ranks results = map (fun k => Some (VInt (Z.of_nat k))) (seq 1 (length results)) /\
    (forall (i : nat) (result : dict),
       results !! i = Some result -> result !! "rank" = Some (VInt (Z.of_nat i + 1))).
Proof.
  eexists _, _. split; [apply search_run|].
  rewrite length_ranked. split; [apply ranks_ranked|].
  intros i result. rewrite ranked_lookup.
  destruct (_ !! i) as [record|]; [|done]. intros [= <-].
  rewrite normalize_rank. do 2 f_equal.
Qed.

(** C10: in a result, title, snippet and url are the provider record's
    title, body and href whenever the record has the key, whatever its value
    (an empty text and [None] included); the placeholders stand in only for
    a key the record does not have. *)
Theorem search_placeholders (env : Env) (self : t) (query : string)
    (max_results : option Z) (w : World) (i : nat) (record : dict) :
  delivered env query (or_int max_results (SearchAgent.max_results self)) !! i
    = Some record ->
  exists results w' result,
    search env self query max_results w = (Ok results, w') /\
    results !! i = Some result /\
    result !! "title" =
      Some (match record !! "title" with Some v => v | None => VStr "No title" end) /\
    result !! "snippet" =
      Some (match record !! "body" with Some v => v | None => VStr "No description" end) /\
    result !! "url" =
      Some (match record !! "href" with Some v => v | None => VStr "" end).
Proof.
  intros Hrec. eexists _, _, _. split; [apply search_run|].
  split; [by rewrite ranked_lookup, Hrec|].
  repeat split.
Qed.

Lemma search_placeholders_witness :
  exists results w' result,
    search sparse (__init__ None) "q" None nowhere = (Ok results, w') /\
    results !! 0%nat = Some result /\
    result !! "title" = Some (VStr "") /\
    result !! "snippet" = Some VNone /\
    result !! "url" = Some (VStr "").
Proof.
  apply (search_placeholders sparse (__init__ None) "q" None nowhere 0 sparse_record).
  reflexivity.
Defined.

End Search.

(** ** The search agent: effects and shape of the results *)

Section SearchEffects.

Import SearchAgent Examples.

Lemma search_emitted (env : Env) (self : t) (query : string)
    (max_results : option Z) (w : World) :
  emitted w (snd (search env self query max_results w)) =
  search_events env self query
    (or_int max_results (SearchAgent.max_results self)) (clock_reads w).
Proof. rewrite search_run; simpl. apply emitted_app. Qed.

Lemma search_returned (env : Env) (self : t) (query : string)
    (max_results : option Z) (w : World) :
  fst (search env self query max_results w) =
  Ok (ranked 0 (delivered env query
                  (or_int max_results (SearchAgent.max_results self)))).
Proof. by rewrite search_run. Qed.


Lemma printed_sleeps (n : nat) : printed (replicate n (TimeSleep 500)) = [].
Proof. induction n as [|n IH]; [done|exact IH]. Qed.

Lemma provider_events_sleeps (n : nat) :
  provider_events (replicate n (TimeSleep 500)) = [].
Proof. induction n as [|n IH]; [done|exact IH]. Qed.

Lemma Forall_ranked (P : dict -> Prop) (records : list dict) (idx : Z) :
  (forall i record, P (normalize i record)) -> Forall P (ranked idx records).
Proof.
  intros HP. revert idx.
  induction records as [|r rest IH]; intros idx; simpl; constructor; auto.
Qed.

Lemma normalize_dom (idx : Z) (record : dict) :
  dom (normalize idx record) = result_keys.
Proof.
  unfold normalize, result_keys.
  rewrite !dom_insert_L, dom_singleton_L. set_solver.
Qed.

(** X1: every dictionary [search] returns has exactly the keys rank, title,
    snippet, url and source, and its source is "duckduckgo". *)
Theorem search_result_shape (env : Env) (self : t) (query : string)
    (max_results : option Z) (w : World) :
  exists results w',
    search env self query max_results w = (Ok results, w') /\
    Forall (fun result : dict =>
              dom result = result_keys /\
              result !! "source" = Some (VStr "duckduckgo")) results.
Proof.
  eexists _, _. split; [apply search_run|].
  apply Forall_ranked. intros i record. split; [apply normalize_dom|reflexivity].
Qed.

(** X2: an agent with a knowledge graph logs exactly two entries per call,
    under its own name: the start with the query, then the completion with
    the query, the number of results it returns and success; their
    timestamps are the next two readings of the clock. *)
Theorem search_log_entries (env : Env) (self : t) (query : string)
    (max_results : option Z) (w : World) (kg : KnowledgeGraph) :
  knowledge_graph self = Some kg ->
  exists results w',
    search env self query max_results w = (Ok results, w') /\
    log_entries (emitted w w') =
      [ {| agent := name self; action := "search_started";
           data := {[ "query" := VStr query ]};
           timestamp := clock env (clock_reads w) |};
        {| agent := name self; action := "search_completed";
           data := {[ "query" := VStr query;
                      "result_count" := VInt (len results);
                      "success" := VBool true ]};
           timestamp := clock env (S (clock_reads w)) |} ] /\
    clock_reads w' = S (S (clock_reads w)).
Proof.
  intros Hkg. eexists _, _. split; [apply search_run|].
  rewrite emitted_app. simpl. rewrite Hkg. split; [|done].
  unfold search_events, session_events, log_entries.
  rewrite Hkg, !omap_app. fold log_entries. simpl.
  destruct (ddgs_open env); simpl; [done|].
  rewrite !omap_app. fold log_entries. rewrite log_entries_sleeps.
  by destruct (ending _).
Qed.

Lemma search_log_entries_witness :
  exists results w',
    search breaking (__init__ (Some 7%nat)) "q" None nowhere = (Ok results, w') /\
    log_entries (emitted nowhere w') =
      [ {| agent := "SearchAgent"; action := "search_started";
           data := {[ "query" := VStr "q" ]}; timestamp := "0" |};
        {| agent := "SearchAgent"; action := "search_completed";
           data := {[ "query" := VStr "q";
                      "result_count" := VInt (len results);
                      "success" := VBool true ]};
           timestamp := "1" |} ] /\
    clock_reads w' = 2%nat.
Proof.
  apply (search_log_entries breaking (__init__ (Some 7%nat)) "q" None nowhere 7%nat).
  reflexivity.
Defined.

(** X3: an agent without a knowledge graph logs nothing and does not read
    the clock, and returns what it would return with one. *)
Theorem search_without_knowledge_graph (env : Env) (self : t) (query : string)
    (max_results : option Z) (w : World) :
  knowledge_graph self = None ->
  log_entries (emitted w (snd (search env self query max_results w))) = [] /\
  clock_reads (snd (search env self query max_results w)) = clock_reads w /\
  forall kg : KnowledgeGraph,
    fst (search env {| knowledge_graph := Some kg; name := name self;
                       max_results := SearchAgent.max_results self |}
           query max_results w) =
    fst (search env self query max_results w).
Proof.
  intros Hkg. split; [|split].
  - pose proof (search_actions env self query max_results w) as H.
    rewrite Hkg in H. unfold actions in H.
    by destruct (log_entries _).
  - rewrite search_run; simpl. by rewrite Hkg.
  - intros kg. by rewrite !search_returned.
Qed.

Lemma search_without_knowledge_graph_witness :
  log_entries (emitted nowhere (snd (search seven (__init__ None) "q" None nowhere))) = [] /\
  clock_reads (snd (search seven (__init__ None) "q" None nowhere)) = 0%nat /\
  forall kg : KnowledgeGraph,
    fst (search seven {| knowledge_graph := Some kg; name := "SearchAgent";
                         max_results := 5 |} "q" None nowhere) =
    fst (search seven (__init__ None) "q" None nowhere).
Proof.
  apply (search_without_knowledge_graph seven (__init__ None) "q" None nowhere).
  reflexivity.
Defined.


(** X5: when the session opens, the provider sees one entry, one [text] call
    with the query and the limit, and one exit, in this order, whether or
    not the call or the iteration raises; when it does not open, the
    provider sees nothing. *)
Theorem search_session_closed (env : Env) (self : t) (query : string)
    (max_results : option Z) (w : World) :
  provider_events (emitted w (snd (search env self query max_results w))) =
  match ddgs_open env with
  | Some _ => []
  | None => [DdgsEnter;
             DdgsText query (or_int max_results (SearchAgent.max_results self));
             DdgsExit]
  end.
Proof.
  rewrite search_emitted.
  unfold search_events, session_events, provider_events.
  rewrite !omap_app. fold provider_events.
  destruct (knowledge_graph self), (ddgs_open env); simpl; try done;
    rewrite !omap_app; fold provider_events; rewrite provider_events_sleeps;
    by destruct (ending _).
Qed.

(** X6: a failure of the provider, at opening, at the call or during the
    iteration, is printed once as "Search error: " followed by the error's
    text, and the call still returns the results of the records received
    before it; without a failure nothing is printed. *)
Theorem search_prints_failure (env : Env) (self : t) (query : string)
    (max_results : option Z) (w : World) :
  let limit := or_int max_results (SearchAgent.max_results self) in
  exists w',
    search env self query max_results w
      = (Ok (ranked 0 (delivered env query limit)), w') /\
    printed (emitted w w') =
      match failure env query limit with
      | Some e => ["Search error: " +:+ exc_str e]
      | None => []
      end.
Proof.
  intros limit. eexists. split; [apply search_run|].
  rewrite emitted_app. fold limit.
  unfold search_events, session_events, failure, printed.
  rewrite !omap_app. fold printed.
  destruct (knowledge_graph self), (ddgs_open env); simpl; try done;
    rewrite !omap_app; fold printed; rewrite printed_sleeps;
    by destruct (ending _).
Qed.

End SearchEffects.

(** ** The summarizer: when it returns, what it raises, what it logs *)

Section SummarizerEffects.

Import SummarizerAgent Examples.

Lemma slice_not_sliceable (result : dict) (v : value) :
  result !! "snippet" = Some v -> not_sliceable v = true ->
  slice_to 200 (get result "snippet" (VStr "")) = Raise (not_subscriptable v).
Proof.
  intros Hv Hno. unfold get. rewrite Hv; simpl. by destruct v.
Qed.

Lemma for_each_ok (working_set : list dict) (kf src kf' src' : list dict) :
  for_each working_set (kf, src) = Ok (kf', src') ->
  kf' = kf ++ map (fun result => finding (sliced_snippet result) result) working_set /\
  src' = src ++ map source_ref (filter has_url working_set).
Proof.
  revert kf src. induction working_set as [|result rest IH]; intros kf src; simpl.
  - intros [= <- <-]. by rewrite !app_nil_r.
  - unfold sliced_snippet.
    destruct (slice_to 200 _) as [point|e]; [|done].
    fold (has_url result). rewrite filter_cons.
    destruct (has_url result) eqn:Hurl; intros H; apply IH in H as [-> ->].
    + rewrite decide_True by done. simpl. by rewrite <- !app_assoc.
    + rewrite decide_False by (by intros ?). by rewrite <- !app_assoc.
Qed.

Lemma for_each_app (front back : list dict) (acc : list dict * list dict) :
  for_each (front ++ back) acc =
  match for_each front acc with
  | Ok acc' => for_each back acc'
  | Raise e => Raise e
  end.
Proof.
  revert acc. induction front as [|result rest IH]; intros acc; simpl; [done|].
  destruct (loop_body result acc); [apply IH|done].
Qed.

Lemma synthesize_working_set (search_results : list (list dict)) :
  Forall (fun result => snippet_is_text result = true)
         (take 10 (concat search_results)) ->
  _synthesize_information search_results = Ok (summary_of search_results).
Proof.
  intros Hty. unfold _synthesize_information, summary_of.
  rewrite (for_each_typed _ _ _ Hty). simpl. do 2 f_equal.
  apply take_ge. rewrite length_map.
  etrans; [apply length_filter|]. rewrite length_take. lia.
Qed.

Lemma synthesize_ok_inv (search_results : list (list dict)) (summary : Summary) :
  _synthesize_information search_results = Ok summary ->
  key_findings summary =
    map (fun result => finding (sliced_snippet result) result)
        (take 10 (concat search_results)) /\
  sources summary = map source_ref (filter has_url (take 10 (concat search_results))).
Proof.
  unfold _synthesize_information.
  destruct (for_each _ _) as [[kf src]|e] eqn:Hloop; [|done].
  intros [= <-]. apply for_each_ok in Hloop as [-> ->]. simpl.
  split; [done|]. apply take_ge. rewrite length_map.
  etrans; [apply length_filter|]. rewrite length_take. lia.
Qed.

Lemma summarize_ok_inv (env : Env) (self : t) (search_results : list (list dict))
    (w w' : World) (summary : Summary) :
  summarize env self search_results w = (Ok summary, w') ->
  key_findings summary =
    map (fun result => finding (sliced_snippet result) result)
        (take 10 (concat search_results)) /\
  sources summary = map source_ref (filter has_url (take 10 (concat search_results))).
Proof.
  intros H. apply synthesize_ok_inv.
  rewrite <- (summarize_result env self search_results w). by rewrite H.
Qed.

Lemma substring_all (n : nat) (s : string) :
  (String.length s <= n)%nat -> substring 0 n s = s.
Proof.
  revert n. induction s as [|c s IH]; intros [|n] Hn; simpl in *; try done; try lia.
  f_equal. apply IH. lia.
Qed.

Lemma filter_map_commute {A B} (f : A -> B) (p : B -> bool) (l : list A) :
  filter (fun b => p b) (map f l) = map f (filter (fun a => p (f a)) l).
Proof.
  induction l as [|a l IH]; [done|]. simpl.
  rewrite !filter_cons, IH. by destruct (p (f a)).
Qed.

(** X7: [summarize] returns a summary whenever the snippet of each of the
    first ten records of the batches laid end to end is a text or is
    missing, whatever the later records hold; the summary counts all the
    records and has a finding for each of the first ten. *)
Theorem summarize_returns_on_working_set (env : Env) (self : t)
    (search_results : list (list dict)) (w : World) :
  Forall (fun result => snippet_is_text result = true)
         (take 10 (concat search_results)) ->
  exists summary w',
    summarize env self search_results w = (Ok summary, w') /\
    source_count summary = Z.of_nat (length (concat search_results)) /\
    length (key_findings summary) = min 10 (length (concat search_results)).
Proof.
  intros Hty. apply synthesize_working_set in Hty.
  destruct (summarize_returns env self _ w _ Hty) as [w' Hrun].
  eexists _, w'. split; [exact Hrun|]. simpl.
  split; [done|]. by rewrite length_map, length_take.
Qed.

Lemma summarize_returns_on_working_set_witness :
  exists summary w',
    summarize seven (__init__ None) [replicate 10 result_B; [result_null]] nowhere
      = (Ok summary, w') /\
    source_count summary = 11%Z /\
    length (key_findings summary) = 10%nat.
Proof.
  apply (summarize_returns_on_working_set seven (__init__ None)
           [replicate 10 result_B; [result_null]] nowhere).
  repeat (constructor; try reflexivity).
Defined.

Lemma summarize_raises (env : Env) (self : t)
    (search_results : list (list dict)) (w : World)
    (front rest : list dict) (result : dict) (v : value) :
  take 10 (concat search_results) = front ++ result :: rest ->
  Forall (fun r => snippet_is_text r = true) front ->
  result !! "snippet" = Some v ->
  not_sliceable v = true ->
  fst (summarize env self search_results w) = Raise (not_subscriptable v).
Proof.
  intros Hsplit Hfront Hv Hno. rewrite summarize_result.
  unfold _synthesize_information. rewrite Hsplit, for_each_app.
  rewrite (for_each_typed _ _ _ Hfront). simpl.
  by rewrite (slice_not_sliceable _ _ Hv Hno).
Qed.

(** X8: when the first record among the first ten whose snippet is no text
    has as snippet [v] that is [None], a [bool] or an [int], [summarize]
    raises the [TypeError] "'<type of v>' object is not subscriptable" and
    returns no summary. *)
Theorem summarize_type_error (env : Env) (self : t)
    (search_results : list (list dict)) (w : World)
    (front rest : list dict) (result : dict) (v : value) :
  take 10 (concat search_results) = front ++ result :: rest ->
  Forall (fun r => snippet_is_text r = true) front ->
  result !! "snippet" = Some v ->
  not_sliceable v = true ->
  fst (summarize env self search_results w) =
  Raise {| exc_class := "TypeError";
           exc_str := "'" +:+ type_name v +:+ "' object is not subscriptable" |}.
Proof. apply summarize_raises. Qed.

Lemma summarize_type_error_witness :
  fst (summarize seven (__init__ None) [[result_B]; [result_null; result_B]] nowhere)
  = Raise {| exc_class := "TypeError";
             exc_str := "'NoneType' object is not subscriptable" |}.
Proof.
  apply (summarize_type_error seven (__init__ None)
           [[result_B]; [result_null; result_B]] nowhere
           [result_B] [result_B] result_null VNone);
    [reflexivity|repeat constructor|reflexivity|reflexivity].
Defined.

Lemma summarizer_log_action_events (env : Env) (self : t) (action : string)
    (data : dict) (w : World) :
  _log_action env self action data w =
  (Ok tt,
   {| trace := trace w ++ log_event env (knowledge_graph self) (name self)
                            action data (clock_reads w);
      clock_reads := reads_after (knowledge_graph self) (clock_reads w) |}).
Proof.
  unfold _log_action. destruct (knowledge_graph self); [done|].
  destruct w; simpl. by rewrite app_nil_r.
Qed.

Lemma summarize_run (env : Env) (self : t) (search_results : list (list dict))
    (w : World) :
  let kg := knowledge_graph self in
  let started :=
    log_event env kg (name self) "summarization_started"
      {[ "source_count" := VInt (len search_results) ]} (clock_reads w) in
  summarize env self search_results w =
  match _synthesize_information search_results with
  | Ok summary =>
      (Ok summary,
       {| trace := trace w ++ started ++
            log_event env kg (name self) "summarization_completed"
              {[ "source_count" := VInt (len search_results);
                 "key_points" := VInt (len (key_findings summary)) ]}
              (reads_after kg (clock_reads w));
          clock_reads := reads_after kg (reads_after kg (clock_reads w)) |})
  | Raise e =>
      (Raise e,
       {| trace := trace w ++ started;
          clock_reads := reads_after kg (clock_reads w) |})
  end.
Proof.
  intros kg started. unfold summarize.
  rewrite bind_run, summarizer_log_action_events.
  rewrite bind_run. unfold lift_result at 1.
  destruct (_synthesize_information search_results) as [summary|e]; [|done].
  rewrite bind_run, summarizer_log_action_events. simpl.
  by rewrite <- app_assoc.
Qed.

(** X9: with a knowledge graph, [summarize] logs under its own name the
    start and, only if it returns, the completion; both carry as
    source_count the number of batches (not of records), the completion also
    the number of key findings; when slicing raises, the start is the only
    entry. *)
Theorem summarize_log_entries (env : Env) (self : t)
    (search_results : list (list dict)) (w : World) (kg : KnowledgeGraph) :
  knowledge_graph self = Some kg ->
  log_entries (emitted w (snd (summarize env self search_results w))) =
    {| agent := name self; action := "summarization_started";
       data := {[ "source_count" := VInt (Z.of_nat (length search_results)) ]};
       timestamp := clock env (clock_reads w) |}
    :: match fst (summarize env self search_results w) with
       | Ok summary =>
           [ {| agent := name self; action := "summarization_completed";
                data := {[ "source_count" := VInt (Z.of_nat (length search_results));
                           "key_points" :=
                             VInt (Z.of_nat (length (key_findings summary))) ]};
                timestamp := clock env (S (clock_reads w)) |} ]
       | Raise _ => []
       end.
Proof.
  intros Hkg. rewrite summarize_run. rewrite Hkg.
  destruct (_synthesize_information search_results) as [summary|e]; simpl;
    by rewrite emitted_app.
Qed.

Lemma summarize_log_entries_witness :
  log_entries (emitted nowhere
    (snd (summarize seven (__init__ (Some 3%nat)) [[result_B]; [result_B; result_B]] nowhere))) =
    [ {| agent := "SummarizerAgent"; action := "summarization_started";
         data := {[ "source_count" := VInt 2 ]}; timestamp := "0" |};
      {| agent := "SummarizerAgent"; action := "summarization_completed";
         data := {[ "source_count" := VInt 2; "key_points" := VInt 3 ]};
         timestamp := "1" |} ].
Proof.
  apply (summarize_log_entries seven (__init__ (Some 3%nat))
           [[result_B]; [result_B; result_B]] nowhere 3%nat).
  reflexivity.
Defined.

(** X10: without a knowledge graph [summarize] logs nothing and leaves the
    world as it found it, whether it returns or raises. *)
Theorem summarize_without_knowledge_graph (env : Env) (self : t)
    (search_results : list (list dict)) (w : World) :
  knowledge_graph self = None ->
  snd (summarize env self search_results w) = w.
Proof.
  intros Hkg. rewrite summarize_run. rewrite Hkg.
  destruct (_synthesize_information search_results), w; simpl;
    by rewrite ?app_nil_r.
Qed.

Lemma summarize_without_knowledge_graph_witness :
  snd (summarize seven (__init__ None) [[result_null]] nowhere) = nowhere.
Proof.
  apply (summarize_without_knowledge_graph seven (__init__ None) [[result_null]] nowhere).
  reflexivity.
Defined.

(** X11: batches that hold no record at all, their number whatever, give
    the summary with no finding, no source, a count of zero and the method
    "heuristic_extraction". *)
Theorem summarize_empty (env : Env) (self : t)
    (search_results : list (list dict)) (w : World) :
  Forall (fun batch => batch = []) search_results ->
  exists w',
    summarize env self search_results w =
    (Ok {| key_findings := []; source_count := 0; sources := [];
           synthesis_method := "heuristic_extraction" |}, w').
Proof.
  intros Hempty. apply summarize_returns.
  unfold _synthesize_information.
  by rewrite (concat_empty_batches _ Hempty).
Qed.

Lemma summarize_empty_witness :
  exists w',
    summarize seven (__init__ (Some 0%nat)) [[]; []; []] nowhere =
    (Ok {| key_findings := []; source_count := 0; sources := [];
           synthesis_method := "heuristic_extraction" |}, w').
Proof.
  apply (summarize_empty seven (__init__ (Some 0%nat)) [[]; []; []] nowhere).
  repeat constructor.
Defined.

Lemma finding_lookup (env : Env) (self : t) (search_results : list (list dict))
    (w w' : World) (summary : Summary) (i : nat) (result : dict) :
  summarize env self search_results w = (Ok summary, w') ->
  (i < 10)%nat ->
  concat search_results !! i = Some result ->
  key_findings summary !! i = Some (finding (sliced_snippet result) result).
Proof.
  intros Hrun Hi Hres. apply summarize_ok_inv in Hrun as [-> _].
  by rewrite list_lookup_fmap, lookup_take_lt, Hres.
Qed.

Lemma finding_dom (point : value) (result : dict) :
  dom (finding point result) = finding_keys.
Proof.
  unfold finding, finding_keys.
  rewrite !dom_insert_L, dom_singleton_L. set_solver.
Qed.

(** X12: in a returned summary the finding of the i-th record (i < 10) has
    exactly the keys point, source and url; its source is the record's title
    and its url the record's url whenever the record has the key, whatever
    the value, and "Unknown" and the empty text when it has not. *)
Theorem summarize_placeholders (env : Env) (self : t)
    (search_results : list (list dict)) (w w' : World) (summary : Summary)
    (i : nat) (result : dict) :
  summarize env self search_results w = (Ok summary, w') ->
  (i < 10)%nat ->
  concat search_results !! i = Some result ->
  exists finding : dict,
    key_findings summary !! i = Some finding /\
    dom finding = finding_keys /\
    finding !! "source" =
      Some (match result !! "title" with Some v => v | None => VStr "Unknown" end) /\
    finding !! "url" =
      Some (match result !! "url" with Some v => v | None => VStr "" end).
Proof.
  intros Hrun Hi Hres. eexists.
  split; [by eapply finding_lookup|].
  split; [apply finding_dom|]. by split.
Qed.

Lemma summarize_placeholders_witness :
  exists finding : dict,
    key_findings (summary_of [[result_B]; [∅]]) !! 1%nat = Some finding /\
    dom finding = finding_keys /\
    finding !! "source" = Some (VStr "Unknown") /\
    finding !! "url" = Some (VStr "").
Proof.
  exact (summarize_placeholders seven (__init__ None) [[result_B]; [∅]]
           nowhere nowhere (summary_of [[result_B]; [∅]]) 1 ∅
           eq_refl (le_n_S _ _ (le_n_S _ _ (Nat.le_0_l 8))) eq_refl).
Defined.

(** X13: in a returned summary the point of the i-th record (i < 10) is
    the empty text when the record has no snippet, and the first 200
    characters of the snippet when that is a text: a text of at most 200
    characters, and the snippet itself when it has at most 200. *)
Theorem summarize_point (env : Env) (self : t)
    (search_results : list (list dict)) (w w' : World) (summary : Summary)
    (i : nat) (result : dict) :
  summarize env self search_results w = (Ok summary, w') ->
  (i < 10)%nat ->
  concat search_results !! i = Some result ->
  (result !! "snippet" = None ->
     key_findings summary !! i ≫= (.!! "point") = Some (VStr "")) /\
  (forall s, result !! "snippet" = Some (VStr s) ->
     key_findings summary !! i ≫= (.!! "point") = Some (VStr (substring 0 200 s)) /\
     (String.length (substring 0 200 s) <= 200)%nat /\
     ((String.length s <= 200)%nat -> substring 0 200 s = s)).
Proof.
  intros Hrun Hi Hres.
  rewrite (finding_lookup _ _ _ _ _ _ _ _ Hrun Hi Hres).
  change (Some (finding (sliced_snippet result) result) ≫= (.!! "point"))
    with (Some (sliced_snippet result)).
  unfold sliced_snippet, get. split.
  - by intros ->.
  - intros s ->. simpl. split; [done|].
    split; [rewrite length_substring_0; lia|apply substring_all].
Qed.

Lemma summarize_point_witness :
  (result_A x300 !! "snippet" = None ->
     key_findings (summary_of [[result_A x300; result_B]]) !! 0%nat ≫= (.!! "point")
       = Some (VStr "")) /\
  (forall s, result_A x300 !! "snippet" = Some (VStr s) ->
     key_findings (summary_of [[result_A x300; result_B]]) !! 0%nat ≫= (.!! "point")
       = Some (VStr (substring 0 200 s)) /\
     (String.length (substring 0 200 s) <= 200)%nat /\
     ((String.length s <= 200)%nat -> substring 0 200 s = s)).
Proof.
  apply (summarize_point seven (__init__ None) [[result_A x300; result_B]]
           nowhere nowhere (summary_of [[result_A x300; result_B]]) 0 (result_A x300));
    [reflexivity|lia|reflexivity].
Defined.

Lemma cited_finding (point : value) (result : dict) :
  cited (finding point result) = source_ref result.
Proof. reflexivity. Qed.

Lemma finding_has_url_result (point : value) (result : dict) :
  finding_has_url (finding point result) = has_url result.
Proof.
  unfold finding_has_url, has_url, get_or_None.
  change (get (finding point result) "url" VNone) with (get result "url" (VStr "")).
  unfold get. by destruct (result !! "url").
Qed.

(** X14: the sources of a returned summary can be read off its key
    findings: they are, in order, the source (as title) and the url of the
    findings whose url is truthy, so every source is cited by a finding and
    every finding with a url has its source. *)
Theorem sources_from_findings (env : Env) (self : t)
    (search_results : list (list dict)) (w w' : World) (summary : Summary) :
  summarize env self search_results w = (Ok summary, w') ->
  sources summary = map cited (filter finding_has_url (key_findings summary)).
Proof.
  intros Hrun. apply summarize_ok_inv in Hrun as [-> ->].
  rewrite (filter_map_commute _ finding_has_url), map_map.
  rewrite (list_filter_iff
             (fun r => Is_true (finding_has_url (finding (sliced_snippet r) r)))
             (fun r => Is_true (has_url r))).
  - apply map_ext. intros r. by rewrite cited_finding.
  - intros r. by rewrite finding_has_url_result.
Qed.

Lemma sources_from_findings_witness :
  sources (summary_of [[result_A x300; result_B]]) =
  map cited (filter finding_has_url (key_findings (summary_of [[result_A x300; result_B]]))).
Proof.
  apply (sources_from_findings seven (__init__ None) [[result_A x300; result_B]]
           nowhere nowhere (summary_of [[result_A x300; result_B]])).
  reflexivity.
Defined.

End SummarizerEffects.

(** ** Search, then summarize *)

Section Pipeline.

Import Examples.

Lemma normalize_snippet_is_text (idx : Z) (record : dict) :
  snippet_is_text (SearchAgent.normalize idx record) = body_is_text record.
Proof.
  unfold snippet_is_text, body_is_text.
  change (SearchAgent.normalize idx record !! "snippet")
    with (Some (get record "body" (VStr "No description"))).
  unfold get. by destruct (record !! "body") as [[]|].
Qed.

Lemma finding_of_normalize (idx : Z) (record : dict) :
  finding_of (SearchAgent.normalize idx record) = pipeline_finding record.
Proof.
  unfold finding_of, pipeline_finding, snippet_text, SummarizerAgent.finding.
  change (SearchAgent.normalize idx record !! "snippet")
    with (Some (get record "body" (VStr "No description"))).
  change (get (SearchAgent.normalize idx record) "title" (VStr "Unknown"))
    with (get record "title" (VStr "No title")).
  change (get (SearchAgent.normalize idx record) "url" (VStr ""))
    with (get record "href" (VStr "")).
  unfold get at 1. by destruct (record !! "body") as [[]|].
Qed.

Lemma source_ref_normalize (idx : Z) (record : dict) :
  SummarizerAgent.source_ref (SearchAgent.normalize idx record) = pipeline_source record.
Proof. reflexivity. Qed.

Lemma has_url_normalize (idx : Z) (record : dict) :
  has_url (SearchAgent.normalize idx record) = has_href record.
Proof.
  unfold has_url, has_href, get_or_None.
  change (get (SearchAgent.normalize idx record) "url" VNone)
    with (get record "href" (VStr "")).
  unfold get. by destruct (record !! "href").
Qed.

Lemma ranked_take (n : nat) (records : list dict) (idx : Z) :
  take n (ranked idx records) = ranked idx (take n records).
Proof.
  revert n idx. induction records as [|r rest IH]; intros [|n] idx; simpl; try done.
  by rewrite IH.
Qed.

Lemma ranked_typed (records : list dict) (idx : Z) :
  Forall (fun result => snippet_is_text result = true) (ranked idx records) <->
  Forall (fun record => body_is_text record = true) records.
Proof.
  revert idx. induction records as [|r rest IH]; intros idx; simpl.
  - split; constructor.
  - rewrite !Forall_cons, normalize_snippet_is_text. by rewrite IH.
Qed.

Lemma map_finding_of_ranked (records : list dict) (idx : Z) :
  map finding_of (ranked idx records) = map pipeline_finding records.
Proof.
  revert idx. induction records as [|r rest IH]; intros idx; simpl; [done|].
  by rewrite finding_of_normalize, IH.
Qed.

Lemma sources_of_ranked (records : list dict) (idx : Z) :
  map SummarizerAgent.source_ref (filter has_url (ranked idx records)) =
  map pipeline_source (filter has_href records).
Proof.
  revert idx. induction records as [|r rest IH]; intros idx; simpl; [done|].
  rewrite !filter_cons, has_url_normalize.
  destruct (has_href r); simpl; by rewrite IH.
Qed.

Lemma working_set_single (results : list dict) :
  take 10 (concat [results]) = take 10 results.
Proof. simpl. by rewrite app_nil_r. Qed.

Lemma ranked_app (front back : list dict) (idx : Z) :
  ranked idx (front ++ back) =
  ranked idx front ++ ranked (idx + Z.of_nat (length front)) back.
Proof.
  revert idx. induction front as [|r rest IH]; intros idx; simpl.
  - by rewrite Z.add_0_r.
  - rewrite IH. do 3 f_equal. lia.
Qed.

(** X15: when the first of the first ten records the provider handed over
    whose body is no text has as body [v] that is [None], a [bool] or an
    [int], [search] returns its results as usual and [summarize], given them
    as one batch, raises the [TypeError]
    "'<type of v>' object is not subscriptable". *)
Theorem pipeline_type_error (env : Env) (searcher : SearchAgent.t)
    (summarizer : SummarizerAgent.t) (query : string) (max_results : option Z)
    (w : World) (front rest : list dict) (record : dict) (v : value) :
  take 10 (delivered env query
             (or_int max_results (SearchAgent.max_results searcher)))
    = front ++ record :: rest ->
  Forall (fun r => body_is_text r = true) front ->
  record !! "body" = Some v ->
  not_sliceable v = true ->
  exists results w1,
    SearchAgent.search env searcher query max_results w = (Ok results, w1) /\
    length results =
      length (delivered env query
                (or_int max_results (SearchAgent.max_results searcher))) /\
    fst (SummarizerAgent.summarize env summarizer [results] w1) =
    Raise {| exc_class := "TypeError";
             exc_str := "'" +:+ type_name v +:+ "' object is not subscriptable" |}.
Proof.
  intros Hsplit Hfront Hv Hno.
  eexists _, _. split; [apply search_run|].
  split; [apply length_ranked|].
  apply (summarize_raises _ _ _ _ (ranked 0 front)
           (ranked (0 + Z.of_nat (length front) + 1) rest)
           (SearchAgent.normalize (0 + Z.of_nat (length front)) record)).
  - by rewrite working_set_single, ranked_take, Hsplit, ranked_app.
  - by apply ranked_typed.
  - change (SearchAgent.normalize (0 + Z.of_nat (length front)) record !! "snippet")
      with (Some (get record "body" (VStr "No description"))).
    unfold get. by rewrite Hv.
  - exact Hno.
Qed.

Lemma pipeline_type_error_witness :
  exists results w1,
    SearchAgent.search sparse (SearchAgent.__init__ None) "q" None nowhere
      = (Ok results, w1) /\
    length results = 1%nat /\
    fst (SummarizerAgent.summarize sparse (SummarizerAgent.__init__ None) [results] w1) =
    Raise {| exc_class := "TypeError";
             exc_str := "'NoneType' object is not subscriptable" |}.
Proof.
  apply (pipeline_type_error sparse (SearchAgent.__init__ None)
           (SummarizerAgent.__init__ None) "q" None nowhere [] [] sparse_record VNone);
    [reflexivity|constructor|reflexivity|reflexivity].
Defined.

(** X16: when those bodies are texts or missing, the summary of one
    [search] counts every record the provider handed over, has one finding
    for each of the first ten, with the first 200 characters of the body (of
    "No description" without a body) as point, the title (or "No title") as
    source and the link (or the empty text) as url, and one source for each
    of them whose link is truthy. *)
Theorem pipeline_summary (env : Env) (searcher : SearchAgent.t)
    (summarizer : SummarizerAgent.t) (query : string) (max_results : option Z)
    (w : World) :
  let records :=
    delivered env query (or_int max_results (SearchAgent.max_results searcher)) in
  Forall (fun record => body_is_text record = true) (take 10 records) ->
  exists results w1 summary w2,
    SearchAgent.search env searcher query max_results w = (Ok results, w1) /\
    SummarizerAgent.summarize env summarizer [results] w1 = (Ok summary, w2) /\
    source_count summary = Z.of_nat (length records) /\
    key_findings summary = map pipeline_finding (take 10 records) /\
    sources summary = map pipeline_source (filter has_href (take 10 records)).
Proof.
  intros records Hty.
  assert (Forall (fun result => snippet_is_text result = true)
            (take 10 (concat [ranked 0 records]))) as Hws.
  { rewrite working_set_single, ranked_take. by apply ranked_typed. }
  apply synthesize_working_set in Hws.
  destruct (summarize_returns env summarizer _
              (snd (SearchAgent.search env searcher query max_results w)) _ Hws)
    as [w2 Hsum].
  rewrite search_run in Hsum. simpl in Hsum.
  eexists _, _, _, w2. split; [apply search_run|]. split; [exact Hsum|].
  unfold summary_of. simpl. rewrite app_nil_r, ranked_take.
  split; [|split].
  - unfold len. by rewrite length_ranked.
  - apply map_finding_of_ranked.
  - apply sources_of_ranked.
Qed.

Lemma pipeline_summary_witness :
  exists results w1 summary w2,
    SearchAgent.search titled (SearchAgent.__init__ None) "q" None nowhere
      = (Ok results, w1) /\
    SummarizerAgent.summarize titled (SummarizerAgent.__init__ None) [results] w1
      = (Ok summary, w2) /\
    source_count summary = 1%Z /\
    key_findings summary = [pipeline_finding titled_record] /\
    sources summary = [].
Proof.
  apply (pipeline_summary titled (SearchAgent.__init__ None)
           (SummarizerAgent.__init__ None) "q" None nowhere).
  repeat constructor.
Defined.

End Pipeline.
